(** * Mini Data Query Simulation Engine (src/main.py)

    A shallow embedding of the keyword classifier [parse_query_to_sql], of
    the credential check and of the four request handlers, together with the
    properties the specification states about them.

    Python [str] values are modelled by [string]; a character is read as the
    code point of the same number, so the model covers text over the code
    points 0..255 (ASCII and Latin-1).  Inside that range [str.lower] and
    the white space stripped by [str.strip] are the ones of CPython. *)

From Stdlib Require Import ZArith Bool Ascii.
From Stdlib Require String.
From stdpp Require Import base option list strings pretty gmap.

(** ** Python [str] operations used by the program *)

Module Str.

(** [c.lower()] on one code point: A..Z and the Latin-1 capitals
    (0xC0..0xDE, the multiplication sign 0xD7 apart) move up by 32. *)
Definition lower_char (c : ascii) : ascii :=
  let n := N_of_ascii c in
  if ((65 <=? n) && (n <=? 90))%N
     || ((192 <=? n) && (n <=? 222) && negb (n =? 215))%N
  then ascii_of_N (n + 32)
  else c.

(** [s.lower()] *)
Fixpoint lower (s : string) : string :=
  match s with
  | EmptyString => EmptyString
  | String c s' => String (lower_char c) (lower s')
  end.

(** [s.startswith(p)] *)
Fixpoint startswith (p s : string) : bool :=
  match p, s with
  | EmptyString, _ => true
  | String a p', String b s' => if Ascii.eqb a b then startswith p' s' else false
  | String _ _, EmptyString => false
  end.

(** [sub in s]: [sub] occurs in [s] as a contiguous substring. *)
Fixpoint contains (sub s : string) : bool :=
  startswith sub s ||
  match s with
  | EmptyString => false
  | String _ s' => contains sub s'
  end.

(** [c.isspace()]: TAB..CR, FS..US, space, NEL (0x85) and NBSP (0xA0). *)
Definition isspace (c : ascii) : bool :=
  let n := N_of_ascii c in
  (((9 <=? n) && (n <=? 13)) || ((28 <=? n) && (n <=? 32))
   || (n =? 133) || (n =? 160))%N.

(** [s.lstrip()] *)
Fixpoint lstrip (s : string) : string :=
  match s with
  | EmptyString => EmptyString
  | String c s' => if isspace c then lstrip s' else s
  end.

(** [s.rstrip()] *)
Fixpoint rstrip (s : string) : string :=
  match s with
  | EmptyString => EmptyString
  | String c s' =>
      match rstrip s' with
      | EmptyString => if isspace c then EmptyString else String c EmptyString
      | r => String c r
      end
  end.

(** [s.strip()] *)
Definition strip (s : string) : string := rstrip (lstrip s).

(** Truth value of a string: [bool(s)], false only for the empty string. *)
Definition truthy (s : string) : bool :=
  match s with
  | EmptyString => false
  | String _ _ => true
  end.

(** Every character of [s] is white space (true for the empty string). *)
Fixpoint blank (s : string) : bool :=
  match s with
  | EmptyString => true
  | String c s' => isspace c && blank s'
  end.

End Str.

(** ** Substring containment, as a proposition *)

Definition Substring (sub s : string) : Prop :=
  exists pre post, s = pre +:+ sub +:+ post.

(** ** Values, exceptions and the module state *)

(** The values stored in the dictionaries of the program. *)
#[warnings="-register-all"]
Inductive pyval : Type :=
| PyStr (s : string)
| PyInt (n : Z)
| PyList (l : list pyval).

(** The two module-level dictionaries. *)
Record Globals : Type := mkGlobals {
  mock_db : gmap string (gmap string (list string));
  mock_responses : gmap string (list (gmap string pyval))
}.

(** The module state after import: the two dictionary literals. *)
Definition module_globals : Globals := {|
  mock_db :=
    {[ "sales" := {[ "columns" := ["date"; "amount"; "region"; "product"] ]};
       "customers" := {[ "columns" := ["id"; "name"; "email"; "signup_date"] ]} ]};
  mock_responses :=
    {[ "sales" :=
         [ {[ "date" := PyStr "2025-03-01"; "amount" := PyInt 1000;
              "region" := PyStr "North"; "product" := PyStr "Widget" ]};
           {[ "date" := PyStr "2025-03-02"; "amount" := PyInt 1500;
              "region" := PyStr "South"; "product" := PyStr "Gadget" ]} ];
       "customers" :=
         [ {[ "id" := PyInt 1; "name" := PyStr "John Doe";
              "email" := PyStr "john@example.com";
              "signup_date" := PyStr "2025-01-01" ]};
           {[ "id" := PyInt 2; "name" := PyStr "Jane Smith";
              "email" := PyStr "jane@example.com";
              "signup_date" := PyStr "2025-02-01" ]} ] ]}
|}.

Inductive exn : Type :=
| HTTPException (status_code : Z) (detail : string)
| KeyError (key : string).

Inductive result (A : Type) : Type :=
| Ok (a : A)
| Raise (e : exn).

Arguments Ok {A} a.
Arguments Raise {A} e.

(** A Python computation: it runs in the module state, returns a value or
    raises, and leaves a module state behind. *)
Definition Py (A : Type) : Type := Globals -> result A * Globals.

Definition ret {A : Type} (a : A) : Py A := fun g => (Ok a, g).

Definition raise {A : Type} (e : exn) : Py A := fun g => (Raise e, g).

Definition bind {A B : Type} (m : Py A) (k : A -> Py B) : Py B :=
  fun g =>
    match m g with
    | (Ok a, g') => k a g'
    | (Raise e, g') => (Raise e, g')
    end.

(** Reading the module-level names. *)
Definition globals : Py Globals := fun g => (Ok g, g).

(** [try: body / except Exception as e: handler e] *)
Definition try_except {A : Type} (body : Py A) (handler : exn -> Py A) : Py A :=
  fun g =>
    match body g with
    | (Ok a, g') => (Ok a, g')
    | (Raise e, g') => handler e g'
    end.

Notation "'let*' x ':=' m 'in' k" := (bind m (fun x => k))
  (at level 10, x pattern, m at level 100, k at level 200).

(** [d.keys()].  The keys come in the order of the map, not in the order
    of insertion; the program only asks whether some key occurs in a text. *)
Definition keys {V : Type} (d : gmap string V) : list string :=
  (map_to_list d).*1.

(** [d.get(k, dflt)] *)
Definition dict_get {V : Type} (d : gmap string V) (k : string) (dflt : V) : V :=
  default dflt (d !! k).

(** [d[k]], which raises [KeyError] for a missing key. *)
Definition getitem {V : Type} (d : gmap string V) (k : string) : Py V :=
  match d !! k with
  | Some v => ret v
  | None => raise (KeyError k)
  end.

(** [str(e)]; for a [KeyError] the key between quotes (keys here have no
    quote or escape of their own). *)
Definition exn_str (e : exn) : string :=
  match e with
  | HTTPException status_code detail =>
      pretty status_code +:+ ": " +:+ detail
  | KeyError key => "'" +:+ key +:+ "'"
  end.

(** ** Request and response models *)

Module HTTPBasicCredentials.
Record t : Type := mk { username : string; password : string }.
End HTTPBasicCredentials.

Module QueryRequest.
Record t : Type := mk { query : string }.
End QueryRequest.

Module QueryResponse.
Record t : Type := mk {
  original_query : string;
  translated_sql : string;
  results : list (gmap string pyval)
}.
End QueryResponse.

Module ExplainResponse.
Record t : Type := mk {
  original_query : string;
  breakdown : gmap string pyval;
  translated_sql : string
}.
End ExplainResponse.

Module ValidateResponse.
Record t : Type := mk {
  query : string;
  is_valid : bool;
  message : string
}.
End ValidateResponse.

(** ** The program *)

Import Str.

Definition verify_credentials (credentials : HTTPBasicCredentials.t) : Py bool :=
  let correct_username := "admin" in
  let correct_password := "secret123" in
  if negb (String.eqb (HTTPBasicCredentials.username credentials) correct_username)
     || negb (String.eqb (HTTPBasicCredentials.password credentials) correct_password)
  then raise (HTTPException 401 "Invalid credentials")
  else ret true.

(** The credentials the check accepts. *)
Definition authorized (c : HTTPBasicCredentials.t) : Prop :=
  HTTPBasicCredentials.username c = "admin"
  /\ HTTPBasicCredentials.password c = "secret123".

Definition parse_query_to_sql (query : string) : Py (string * string) :=
  let query := lower query in
  (* the last line of the function, reached by every path that has not returned *)
  let fallback := ret ("SELECT * FROM sales", "sales") in
  if contains "sales" query then
    let table := "sales" in
    if contains "by region" query then
      ret ("SELECT region, SUM(amount) FROM sales GROUP BY region", table)
    else if contains "total" query then
      ret ("SELECT SUM(amount) FROM sales", table)
    else if contains "by product" query then
      ret ("SELECT product, SUM(amount) FROM sales GROUP BY product", table)
    else fallback
  else if contains "customer" query || contains "customers" query then
    let table := "customers" in
    if contains "count" query then
      ret ("SELECT COUNT(*) FROM customers", table)
    else if contains "new" query || contains "recent" query then
      ret ("SELECT * FROM customers ORDER BY signup_date DESC", table)
    else fallback
  else fallback.

Definition process_query (request : QueryRequest.t) (auth : bool)
  : Py QueryResponse.t :=
  try_except
    (let* (sql_query, table) := parse_query_to_sql (QueryRequest.query request) in
     let* g := globals in
     ret {| QueryResponse.original_query := QueryRequest.query request;
            QueryResponse.translated_sql := sql_query;
            QueryResponse.results := dict_get (mock_responses g) table [] |})
    (fun e => raise (HTTPException 400 ("Query processing failed: " +:+ exn_str e))).

Definition explain_query (request : QueryRequest.t) (auth : bool)
  : Py ExplainResponse.t :=
  try_except
    (let* (sql_query, table) := parse_query_to_sql (QueryRequest.query request) in
     let* g := globals in
     let* descriptor := getitem (mock_db g) table in
     let* columns := getitem descriptor "columns" in
     let breakdown : gmap string pyval :=
       {[ "detected_table" := PyStr table;
          "query_type" :=
            PyStr (if contains "SUM" sql_query then "aggregation" else "selection");
          "columns" := PyList (PyStr <$> columns) ]} in
     ret {| ExplainResponse.original_query := QueryRequest.query request;
            ExplainResponse.breakdown := breakdown;
            ExplainResponse.translated_sql := sql_query |})
    (fun e => raise (HTTPException 400 ("Query explanation failed: " +:+ exn_str e))).

Definition validate_query (request : QueryRequest.t) (auth : bool)
  : Py ValidateResponse.t :=
  let query := lower (QueryRequest.query request) in
  let* g := globals in
  let has_valid_table := existsb (fun table => contains table query) (keys (mock_db g)) in
  if negb (truthy (strip query)) then
    ret {| ValidateResponse.query := QueryRequest.query request;
           ValidateResponse.is_valid := false;
           ValidateResponse.message := "Query cannot be empty" |}
  else if negb has_valid_table then
    ret {| ValidateResponse.query := QueryRequest.query request;
           ValidateResponse.is_valid := false;
           ValidateResponse.message := "No valid table reference found" |}
  else
    ret {| ValidateResponse.query := QueryRequest.query request;
           ValidateResponse.is_valid := true;
           ValidateResponse.message := "Query appears valid" |}.

Definition health_check : Py (gmap string pyval) :=
  ret {[ "status" := PyStr "healthy" ]}.

(** ** Routing

    The four decorated routes.  A request to one of the three POST routes
    carries the credentials that the [HTTPBasic] scheme read from it;
    [Depends(verify_credentials)] runs the check first and the handler only
    when the check returned.  The GET route declares no dependency. *)

Inductive Request : Type :=
| POST_query (credentials : HTTPBasicCredentials.t) (body : QueryRequest.t)
| POST_explain (credentials : HTTPBasicCredentials.t) (body : QueryRequest.t)
| POST_validate (credentials : HTTPBasicCredentials.t) (body : QueryRequest.t)
| GET_health.

Inductive Response : Type :=
| QueryOut (r : QueryResponse.t)
| ExplainOut (r : ExplainResponse.t)
| ValidateOut (r : ValidateResponse.t)
| JsonOut (d : gmap string pyval).

Definition app (req : Request) : Py Response :=
  match req with
  | POST_query credentials body =>
      let* auth := verify_credentials credentials in
      let* r := process_query body auth in
      ret (QueryOut r)
  | POST_explain credentials body =>
      let* auth := verify_credentials credentials in
      let* r := explain_query body auth in
      ret (ExplainOut r)
  | POST_validate credentials body =>
      let* auth := verify_credentials credentials in
      let* r := validate_query body auth in
      ret (ValidateOut r)
  | GET_health =>
      let* d := health_check in
      ret (JsonOut d)
  end.

(** ** Facts about the string operations *)

Section StrFacts.

Lemma startswith_iff (p s : string) :
  startswith p s = true <-> exists post, s = p +:+ post.
Proof.
  revert s; induction p as [|a p IH]; intros s; simpl.
  - split; [intros _; now exists s | reflexivity].
  - destruct s as [|b s].
    + split; [discriminate | intros [post H]; discriminate].
    + destruct (Ascii.eqb_spec a b) as [->|Hne].
      * rewrite IH. split; intros [post H]; exists post.
        -- now rewrite H.
        -- now inversion H.
      * split; [discriminate | intros [post H]; inversion H; congruence].
Qed.

Lemma contains_iff (sub s : string) :
  contains sub s = true <-> Substring sub s.
Proof.
  unfold Substring. induction s as [|c s IH]; simpl.
  - rewrite orb_false_r, startswith_iff. split.
    + intros [post H]. now exists EmptyString, post.
    + intros [pre [post H]]. destruct pre; [now exists post | discriminate].
  - rewrite orb_true_iff, startswith_iff, IH. split.
    + intros [[post H] | [pre [post H]]].
      * now exists EmptyString, post.
      * exists (String c pre), post. simpl. now rewrite H.
    + intros [pre [post H]]. destruct pre as [|c' pre]; simpl in H.
      * left. now exists post.
      * right. inversion H. now exists pre, post.
Qed.

Lemma lower_char_idem (c : ascii) : lower_char (lower_char c) = lower_char c.
Proof. destruct c as [[] [] [] [] [] [] [] []]; reflexivity. Qed.

Lemma lower_idem (s : string) : lower (lower s) = lower s.
Proof.
  induction s as [|c s IH]; simpl; [reflexivity|].
  now rewrite lower_char_idem, IH.
Qed.

Lemma isspace_lower_char (c : ascii) : isspace (lower_char c) = isspace c.
Proof. destruct c as [[] [] [] [] [] [] [] []]; reflexivity. Qed.

Lemma blank_lower (s : string) : blank (lower s) = blank s.
Proof.
  induction s as [|c s IH]; simpl; [reflexivity|].
  now rewrite isspace_lower_char, IH.
Qed.

Lemma lstrip_blank (s : string) : blank s = true -> lstrip s = EmptyString.
Proof.
  induction s as [|c s IH]; simpl; [reflexivity|].
  destruct (isspace c); simpl; [exact IH | discriminate].
Qed.

Lemma lstrip_not_blank (s : string) :
  blank s = false ->
  exists c r, lstrip s = String c r /\ isspace c = false.
Proof.
  induction s as [|c s IH]; simpl; [discriminate|].
  destruct (isspace c) eqn:E; simpl; [exact IH|].
  intros _. exists c, s. now split.
Qed.

Lemma rstrip_nonspace_head (c : ascii) (r : string) :
  isspace c = false -> truthy (rstrip (String c r)) = true.
Proof. intros H. simpl. rewrite H. now destruct (rstrip r). Qed.

(** [s.strip()] is empty exactly when [s] consists of white space only. *)
Lemma strip_truthy (s : string) : truthy (strip s) = negb (blank s).
Proof.
  unfold strip. destruct (blank s) eqn:E; simpl.
  - now rewrite lstrip_blank.
  - destruct (lstrip_not_blank s E) as (c & r & -> & Hc).
    now apply rstrip_nonspace_head.
Qed.

End StrFacts.

(** ** Facts about the monad and the classifier *)

Section Classifier.

Lemma append_assoc (a b c : string) : (a +:+ b) +:+ c = a +:+ b +:+ c.
Proof.
  induction a as [|x a IH]; [reflexivity|].
  change (String x ((a +:+ b) +:+ c) = String x (a +:+ b +:+ c)).
  now rewrite IH.
Qed.

(** A text that contains [sub +:+ rest] contains [sub]. *)
Lemma contains_shorter (sub rest s : string) :
  contains (sub +:+ rest) s = true -> contains sub s = true.
Proof.
  rewrite !contains_iff. intros (pre & post & ->).
  exists pre, (rest +:+ post). now rewrite append_assoc.
Qed.

Lemma contains_customers (s : string) :
  contains "customer" s || contains "customers" s = contains "customer" s.
Proof.
  destruct (contains "customer" s) eqn:E; [reflexivity|]. simpl.
  destruct (contains "customers" s) eqn:E'; [|reflexivity].
  apply (contains_shorter "customer" "s") in E'. congruence.
Qed.

(** The six results of the classifier. *)
Lemma parse_query_to_sql_cases (q : string) (g : Globals) :
  exists r,
    parse_query_to_sql q g = (Ok r, g) /\
    (r = ("SELECT region, SUM(amount) FROM sales GROUP BY region", "sales")
     \/ r = ("SELECT SUM(amount) FROM sales", "sales")
     \/ r = ("SELECT product, SUM(amount) FROM sales GROUP BY product", "sales")
     \/ r = ("SELECT COUNT(*) FROM customers", "customers")
     \/ r = ("SELECT * FROM customers ORDER BY signup_date DESC", "customers")
     \/ r = ("SELECT * FROM sales", "sales")).
Proof.
  unfold parse_query_to_sql, ret.
  repeat match goal with
         | |- context [if ?b then _ else _] => destruct b
         end;
    eexists; (split; [reflexivity | tauto]).
Qed.

Lemma keys_mock_db : keys (mock_db module_globals) = ["sales"; "customers"].
Proof. vm_compute. reflexivity. Qed.

End Classifier.

(** ** The classifier: [parse_query_to_sql] *)

Section ClassifierProperties.

(** Claim C1.  For every input string, the empty one included,
    [parse_query_to_sql] returns a pair (statement, table) without raising;
    the statement is not empty and the table is "sales" or "customers",
    which is a key of [mock_responses] and of [mock_db]. *)
Theorem parse_query_to_sql_total (q : string) (g : Globals) :
  exists statement table,
    parse_query_to_sql q g = (Ok (statement, table), g)
    /\ statement <> ""
    /\ (table = "sales" \/ table = "customers")
    /\ is_Some (mock_responses module_globals !! table)
    /\ is_Some (mock_db module_globals !! table).
Proof.
  destruct (parse_query_to_sql_cases q g) as ([statement table] & Hrun & Hr).
  exists statement, table. split; [exact Hrun|].
  repeat destruct Hr as [Hr|Hr]; inversion Hr; subst;
    (split; [discriminate|]);
    (split; [tauto|]);
    split; vm_compute; eexists; reflexivity.
Qed.

(** Claim C2.  When the lower-cased input contains neither "sales" nor
    "customer", or contains "sales" and none of "by region", "total",
    "by product", or contains "customer" without "sales" and none of
    "count", "new", "recent", the classifier returns the default statement
    "SELECT * FROM sales" with table "sales". *)
Theorem parse_query_to_sql_default (q : string) (g : Globals) :
  (contains "sales" (lower q) = false /\ contains "customer" (lower q) = false)
  \/ (contains "sales" (lower q) = true
      /\ contains "by region" (lower q) = false
      /\ contains "total" (lower q) = false
      /\ contains "by product" (lower q) = false)
  \/ (contains "customer" (lower q) = true
      /\ contains "sales" (lower q) = false
      /\ contains "count" (lower q) = false
      /\ contains "new" (lower q) = false
      /\ contains "recent" (lower q) = false) ->
  parse_query_to_sql q g = (Ok ("SELECT * FROM sales", "sales"), g).
Proof.
  unfold parse_query_to_sql. rewrite contains_customers.
  intros [[Hs Hc] | [(Hs & Hr & Ht & Hp) | (Hc & Hs & Hn & Hw & Hrc)]].
  - now rewrite Hs, Hc.
  - now rewrite Hs, Hr, Ht, Hp.
  - now rewrite Hs, Hc, Hn, Hw, Hrc.
Qed.

Lemma parse_query_to_sql_default_witness :
  parse_query_to_sql "Sales report" module_globals
  = (Ok ("SELECT * FROM sales", "sales"), module_globals).
Proof.
  apply (parse_query_to_sql_default "Sales report" module_globals).
  right; left. repeat split; reflexivity.
Defined.

(** Claim C5.  When the lower-cased input contains "sales" and "by region",
    whatever the casing of the input and whatever else it contains, the
    classifier returns the region aggregation and table "sales". *)
Theorem parse_query_to_sql_by_region (q : string) (g : Globals) :
  contains "sales" (lower q) = true ->
  contains "by region" (lower q) = true ->
  parse_query_to_sql q g
  = (Ok ("SELECT region, SUM(amount) FROM sales GROUP BY region", "sales"), g).
Proof.
  intros Hs Hr. unfold parse_query_to_sql. now rewrite Hs, Hr.
Qed.

Lemma parse_query_to_sql_by_region_witness :
  parse_query_to_sql "Total SALES By Region and by product" module_globals
  = (Ok ("SELECT region, SUM(amount) FROM sales GROUP BY region", "sales"),
     module_globals).
Proof.
  apply (parse_query_to_sql_by_region
           "Total SALES By Region and by product" module_globals);
    reflexivity.
Defined.

(** Claim C7.  The classifier is deterministic and has no effect on the
    module state: in any state it returns the same pair and leaves the state
    as it found it, its result does not depend on [mock_db] or
    [mock_responses], and two evaluations in a row return the same pair. *)
Theorem parse_query_to_sql_pure (q : string) (g g' : Globals) :
  exists r,
    parse_query_to_sql q g = (Ok r, g)
    /\ parse_query_to_sql q g' = (Ok r, g')
    /\ (let* r1 := parse_query_to_sql q in
        let* r2 := parse_query_to_sql q in
        ret (r1, r2)) g = (Ok (r, r), g).
Proof.
  destruct (parse_query_to_sql_cases q g) as (r & Hrun & _).
  exists r. split; [exact Hrun|].
  assert (H' : parse_query_to_sql q g' = (Ok r, g')).
  { revert Hrun. unfold parse_query_to_sql, ret.
    repeat match goal with
           | |- context [if ?b then _ else _] => destruct b
           end; intros [= <-]; reflexivity. }
  split; [exact H'|].
  unfold bind. rewrite Hrun, Hrun. reflexivity.
Qed.

(** Claim C8.  Classification is case-insensitive: the input is lower-cased
    before any keyword is looked for, so an input and its lower-cased form
    are classified alike. *)
Theorem parse_query_to_sql_case_insensitive (q : string) :
  parse_query_to_sql q = parse_query_to_sql (lower q).
Proof.
  unfold parse_query_to_sql. now rewrite lower_idem.
Qed.

End ClassifierProperties.

(** ** The handlers *)

Section Handlers.

(** What [validate_query] computes in the module state. *)
Lemma validate_query_run (q : string) (auth : bool) :
  validate_query (QueryRequest.mk q) auth module_globals
  = (Ok (if blank q then
           ValidateResponse.mk q false "Query cannot be empty"
         else if contains "sales" (lower q) || contains "customers" (lower q) then
           ValidateResponse.mk q true "Query appears valid"
         else
           ValidateResponse.mk q false "No valid table reference found"),
     module_globals).
Proof.
  unfold validate_query, bind, globals. cbn [QueryRequest.query].
  rewrite keys_mock_db, strip_truthy, blank_lower, negb_involutive.
  cbn [existsb]. rewrite orb_false_r.
  destruct (blank q); [reflexivity|].
  now destruct (contains "sales" (lower q) || contains "customers" (lower q)).
Qed.

(** What [explain_query] computes in the module state: the type of the
    query is decided by the occurrence of "SUM" in the statement. *)
Lemma explain_query_run (q : string) (auth : bool) :
  exists statement table descriptor columns,
    parse_query_to_sql q module_globals = (Ok (statement, table), module_globals)
    /\ mock_db module_globals !! table = Some descriptor
    /\ descriptor !! "columns" = Some columns
    /\ explain_query (QueryRequest.mk q) auth module_globals
       = (Ok (ExplainResponse.mk q
                {[ "detected_table" := PyStr table;
                   "query_type" :=
                     PyStr (if contains "SUM" statement
                            then "aggregation" else "selection");
                   "columns" := PyList (PyStr <$> columns) ]}
                statement),
          module_globals).
Proof.
  destruct (parse_query_to_sql_cases q module_globals)
    as ([statement table] & Hrun & Hr).
  exists statement, table.
  unfold explain_query, try_except, bind, globals.
  cbn [QueryRequest.query]. rewrite Hrun.
  repeat destruct Hr as [Hr|Hr]; inversion Hr; subst;
    do 2 eexists; (split; [reflexivity|]);
    (split; [vm_compute; reflexivity|]);
    (split; [vm_compute; reflexivity|]);
    vm_compute; reflexivity.
Qed.

(** Claim C3 says that /explain reports "aggregation" whenever the
    statement holds SUM or COUNT.  The handler looks for "SUM" only: for
    "customer count" the statement is "SELECT COUNT(*) FROM customers",
    which holds the aggregate COUNT, and the reported query type is
    "selection". *)
Theorem explain_query_customer_count :
  exists r,
    explain_query (QueryRequest.mk "customer count") true module_globals
    = (Ok r, module_globals)
    /\ ExplainResponse.translated_sql r = "SELECT COUNT(*) FROM customers"
    /\ contains "COUNT" (ExplainResponse.translated_sql r) = true
    /\ ExplainResponse.breakdown r !! "query_type" = Some (PyStr "selection").
Proof.
  eexists. split; [vm_compute; reflexivity|].
  repeat split; vm_compute; reflexivity.
Qed.

(** Claim C4 says that /validate accepts every query that is not blank
    and whose lower-cased text contains "customer", with or without the
    final "s".  The handler looks for the table names only.  "customer
    count" is not blank and contains "customer"; the classifier takes it
    as a reference to the customers table and answers it with the count
    of customers; /validate reports that it holds no table reference. *)
Theorem validate_query_customer_count_rejected :
  blank "customer count" = false
  /\ contains "customer" (lower "customer count") = true
  /\ parse_query_to_sql "customer count" module_globals
     = (Ok ("SELECT COUNT(*) FROM customers", "customers"), module_globals)
  /\ validate_query (QueryRequest.mk "customer count") true module_globals
     = (Ok (ValidateResponse.mk "customer count" false
              "No valid table reference found"),
        module_globals).
Proof. repeat split; vm_compute; reflexivity. Qed.

(** Claim C6.  /validate answers "Query cannot be empty" for the empty
    string and for every input made of white space only, before it looks
    for a table name; it answers "No valid table reference found" for
    "xyz abc", and that the query is valid for "sales report". *)
Theorem validate_query_examples (ws : string) (auth : bool) :
  validate_query (QueryRequest.mk "") auth module_globals
  = (Ok (ValidateResponse.mk "" false "Query cannot be empty"), module_globals)
  /\ (blank ws = true ->
      validate_query (QueryRequest.mk ws) auth module_globals
      = (Ok (ValidateResponse.mk ws false "Query cannot be empty"),
         module_globals))
  /\ validate_query (QueryRequest.mk "xyz abc") auth module_globals
     = (Ok (ValidateResponse.mk "xyz abc" false "No valid table reference found"),
        module_globals)
  /\ validate_query (QueryRequest.mk "sales report") auth module_globals
     = (Ok (ValidateResponse.mk "sales report" true "Query appears valid"),
        module_globals).
Proof.
  split; [|split; [intros Hws|split]]; rewrite validate_query_run;
    [reflexivity | now rewrite Hws | reflexivity | reflexivity].
Qed.

Lemma validate_query_examples_witness :
  validate_query (QueryRequest.mk (String "009" (String "010" "  "))) true
    module_globals
  = (Ok (ValidateResponse.mk (String "009" (String "010" "  ")) false
           "Query cannot be empty"),
     module_globals).
Proof.
  apply (validate_query_examples (String "009" (String "010" "  ")) true).
  reflexivity.
Defined.

(** Claim C10.  On every /query call the table of the classifier is a key
    of [mock_responses]: the default of [get] is never taken, and the
    results are the whole data set of that table, two records, never the
    empty list. *)
Theorem process_query_results (q : string) (auth : bool) :
  exists statement table rows,
    parse_query_to_sql q module_globals = (Ok (statement, table), module_globals)
    /\ mock_responses module_globals !! table = Some rows
    /\ length rows = 2
    /\ process_query (QueryRequest.mk q) auth module_globals
       = (Ok (QueryResponse.mk q statement rows), module_globals).
Proof.
  destruct (parse_query_to_sql_cases q module_globals)
    as ([statement table] & Hrun & Hr).
  exists statement, table.
  unfold process_query, try_except, bind, globals, dict_get.
  cbn [QueryRequest.query]. rewrite Hrun.
  repeat destruct Hr as [Hr|Hr]; inversion Hr; subst;
    eexists; (split; [reflexivity|]);
    (split; [vm_compute; reflexivity|]);
    (split; [reflexivity|]);
    vm_compute; reflexivity.
Qed.

End Handlers.

(** ** Authentication and routing *)

Section Authentication.

Lemma verify_credentials_ok (c : HTTPBasicCredentials.t) (g : Globals) :
  authorized c -> verify_credentials c g = (Ok true, g).
Proof.
  intros [Hu Hp]. unfold verify_credentials. now rewrite Hu, Hp.
Qed.

Lemma verify_credentials_401 (c : HTTPBasicCredentials.t) (g : Globals) :
  ~ authorized c ->
  verify_credentials c g = (Raise (HTTPException 401 "Invalid credentials"), g).
Proof.
  intros Hno. unfold verify_credentials.
  destruct (String.eqb_spec (HTTPBasicCredentials.username c) "admin") as [Hu|Hu];
    [|reflexivity].
  destruct (String.eqb_spec (HTTPBasicCredentials.password c) "secret123")
    as [Hp|Hp]; [|reflexivity].
  exfalso. apply Hno. now split.
Qed.

(** Claim C9.  [verify_credentials] returns exactly when the user name is
    "admin" and the password is "secret123", compared as strings; for any
    other pair it raises the 401 failure, and so do /query, /explain and
    /validate, whose handlers then do not run.  GET /health answers
    {status: "healthy"} and takes no credentials. *)
Theorem verify_credentials_gate
  (c : HTTPBasicCredentials.t) (body : QueryRequest.t) (g : Globals) :
  (verify_credentials c g = (Ok true, g) <-> authorized c)
  /\ (~ authorized c ->
      verify_credentials c g
      = (Raise (HTTPException 401 "Invalid credentials"), g)
      /\ app (POST_query c body) g
         = (Raise (HTTPException 401 "Invalid credentials"), g)
      /\ app (POST_explain c body) g
         = (Raise (HTTPException 401 "Invalid credentials"), g)
      /\ app (POST_validate c body) g
         = (Raise (HTTPException 401 "Invalid credentials"), g))
  /\ (authorized c ->
      app (POST_query c body) g
      = (let* r := process_query body true in ret (QueryOut r)) g
      /\ app (POST_explain c body) g
         = (let* r := explain_query body true in ret (ExplainOut r)) g
      /\ app (POST_validate c body) g
         = (let* r := validate_query body true in ret (ValidateOut r)) g)
  /\ app GET_health g = (Ok (JsonOut {[ "status" := PyStr "healthy" ]}), g).
Proof.
  split; [|split; [|split]].
  - split; [|apply verify_credentials_ok].
    intros Hrun. destruct (String.eqb_spec (HTTPBasicCredentials.username c) "admin")
      as [Hu|Hu].
    + destruct (String.eqb_spec (HTTPBasicCredentials.password c) "secret123")
        as [Hp|Hp]; [now split|].
      unfold verify_credentials in Hrun.
      apply String.eqb_neq in Hp. rewrite Hp, orb_true_r in Hrun. discriminate.
    + unfold verify_credentials in Hrun.
      apply String.eqb_neq in Hu. rewrite Hu in Hrun. discriminate.
  - intros Hno. pose proof (verify_credentials_401 c g Hno) as H.
    cbn [app]. unfold bind at 1 3 5. now rewrite H.
  - intros Hyes. pose proof (verify_credentials_ok c g Hyes) as H.
    cbn [app]. unfold bind at 1 4 7. now rewrite H.
  - reflexivity.
Qed.

Lemma verify_credentials_gate_witness :
  verify_credentials (HTTPBasicCredentials.mk "admin" "secret123") module_globals
  = (Ok true, module_globals)
  /\ app (POST_query (HTTPBasicCredentials.mk "admin" "Secret123")
            (QueryRequest.mk "total sales")) module_globals
     = (Raise (HTTPException 401 "Invalid credentials"), module_globals).
Proof.
  split.
  - apply (verify_credentials_gate (HTTPBasicCredentials.mk "admin" "secret123")
             (QueryRequest.mk "total sales") module_globals).
    split; reflexivity.
  - apply (verify_credentials_gate (HTTPBasicCredentials.mk "admin" "Secret123")
             (QueryRequest.mk "total sales") module_globals).
    intros [_ H]. discriminate H.
Defined.

End Authentication.

(** ** Further properties of the classifier *)

Section ClassifierBranches.

(** Within the "sales" branch "total" comes second: a text with "sales"
    and "total" and without "by region" gets the full sum, whether or not it
    also has "by product" or any of the customer keywords. *)
Theorem parse_query_to_sql_total_sales (q : string) (g : Globals) :
  contains "sales" (lower q) = true ->
  contains "by region" (lower q) = false ->
  contains "total" (lower q) = true ->
  parse_query_to_sql q g = (Ok ("SELECT SUM(amount) FROM sales", "sales"), g).
Proof.
  intros Hs Hr Ht. unfold parse_query_to_sql. now rewrite Hs, Hr, Ht.
Qed.

Lemma parse_query_to_sql_total_sales_witness :
  parse_query_to_sql "Total sales by product, customer count" module_globals
  = (Ok ("SELECT SUM(amount) FROM sales", "sales"), module_globals).
Proof.
  apply (parse_query_to_sql_total_sales
           "Total sales by product, customer count" module_globals);
    reflexivity.
Defined.

(** "by product" comes last in the "sales" branch: it decides only for a
    text with "sales" that has neither "by region" nor "total". *)
Theorem parse_query_to_sql_by_product (q : string) (g : Globals) :
  contains "sales" (lower q) = true ->
  contains "by region" (lower q) = false ->
  contains "total" (lower q) = false ->
  contains "by product" (lower q) = true ->
  parse_query_to_sql q g
  = (Ok ("SELECT product, SUM(amount) FROM sales GROUP BY product", "sales"), g).
Proof.
  intros Hs Hr Ht Hp. unfold parse_query_to_sql. now rewrite Hs, Hr, Ht, Hp.
Qed.

Lemma parse_query_to_sql_by_product_witness :
  parse_query_to_sql "SALES BY PRODUCT" module_globals
  = (Ok ("SELECT product, SUM(amount) FROM sales GROUP BY product", "sales"),
     module_globals).
Proof.
  apply (parse_query_to_sql_by_product "SALES BY PRODUCT" module_globals);
    reflexivity.
Defined.

(** A text with "customer" and "count" and without "sales" gets the count
    of customers, also when it has "new" or "recent". *)
Theorem parse_query_to_sql_customer_count (q : string) (g : Globals) :
  contains "sales" (lower q) = false ->
  contains "customer" (lower q) = true ->
  contains "count" (lower q) = true ->
  parse_query_to_sql q g = (Ok ("SELECT COUNT(*) FROM customers", "customers"), g).
Proof.
  intros Hs Hc Hn. unfold parse_query_to_sql.
  now rewrite contains_customers, Hs, Hc, Hn.
Qed.

Lemma parse_query_to_sql_customer_count_witness :
  parse_query_to_sql "Count the new Customers" module_globals
  = (Ok ("SELECT COUNT(*) FROM customers", "customers"), module_globals).
Proof.
  apply (parse_query_to_sql_customer_count "Count the new Customers" module_globals);
    reflexivity.
Defined.

(** A text with "customer" and with "new" or "recent", without "sales" and
    without "count", gets the customers ordered by sign-up date. *)
Theorem parse_query_to_sql_recent_customers (q : string) (g : Globals) :
  contains "sales" (lower q) = false ->
  contains "customer" (lower q) = true ->
  contains "count" (lower q) = false ->
  contains "new" (lower q) = true \/ contains "recent" (lower q) = true ->
  parse_query_to_sql q g
  = (Ok ("SELECT * FROM customers ORDER BY signup_date DESC", "customers"), g).
Proof.
  intros Hs Hc Hn Hw. unfold parse_query_to_sql.
  rewrite contains_customers, Hs, Hc, Hn.
  destruct Hw as [-> | ->]; [reflexivity | now rewrite orb_true_r].
Qed.

Lemma parse_query_to_sql_recent_customers_witness :
  parse_query_to_sql "most RECENT customer" module_globals
  = (Ok ("SELECT * FROM customers ORDER BY signup_date DESC", "customers"),
     module_globals).
Proof.
  apply (parse_query_to_sql_recent_customers "most RECENT customer" module_globals);
    [reflexivity | reflexivity | reflexivity | right; reflexivity].
Defined.

(** The table of the result is "customers" exactly when the lower-cased
    text has no "sales", has "customer" and has one of "count", "new",
    "recent"; in every other case it is "sales".  A text about customers
    with none of the three words is answered from the sales table. *)
Theorem parse_query_to_sql_table (q : string) (g : Globals) :
  exists statement table,
    parse_query_to_sql q g = (Ok (statement, table), g)
    /\ (table = "customers" \/ table = "sales")
    /\ (table = "customers" <->
        contains "sales" (lower q) = false
        /\ contains "customer" (lower q) = true
        /\ (contains "count" (lower q) = true
            \/ contains "new" (lower q) = true
            \/ contains "recent" (lower q) = true)).
Proof.
  unfold parse_query_to_sql, ret. rewrite contains_customers.
  destruct (contains "sales" (lower q)) eqn:Hs;
    [ destruct (contains "by region" (lower q));
      [|destruct (contains "total" (lower q));
        [|destruct (contains "by product" (lower q))]]
    | destruct (contains "customer" (lower q)) eqn:Hc;
      [ destruct (contains "count" (lower q)) eqn:Hn;
        [|destruct (contains "new" (lower q)) eqn:Hw;
          [|destruct (contains "recent" (lower q)) eqn:Hrc]] |] ];
    cbn [orb]; do 2 eexists; (split; [reflexivity|]);
    (split; [tauto|]); split;
    solve [ discriminate
          | intros (H1 & H2 & H3); try discriminate;
            destruct H3 as [H3|[H3|H3]]; discriminate
          | intros _; repeat split; tauto ].
Qed.

(** The statement always reads from the table that is returned with it:
    it contains "FROM " followed by the name of the table. *)
Theorem parse_query_to_sql_from_table (q : string) (g : Globals) :
  exists statement table,
    parse_query_to_sql q g = (Ok (statement, table), g)
    /\ contains ("FROM " +:+ table) statement = true.
Proof.
  destruct (parse_query_to_sql_cases q g) as ([statement table] & Hrun & Hr).
  exists statement, table. split; [exact Hrun|].
  repeat destruct Hr as [Hr|Hr]; inversion Hr; reflexivity.
Qed.

End ClassifierBranches.

(** ** Keywords inside longer texts, and white space around a text *)

Section Padding.

Lemma append_cons (c : ascii) (a b : string) :
  String c a +:+ b = String c (a +:+ b).
Proof. reflexivity. Qed.

Lemma append_empty_l (b : string) : "" +:+ b = b.
Proof. reflexivity. Qed.

Lemma lower_app (a b : string) : lower (a +:+ b) = lower a +:+ lower b.
Proof.
  induction a as [|c a IH]; [reflexivity|].
  rewrite append_cons. cbn [lower]. now rewrite IH.
Qed.

(** A keyword found in a text is found in every text around it. *)
Lemma contains_embedded (kw pre s post : string) :
  contains kw s = true -> contains kw (pre +:+ s +:+ post) = true.
Proof.
  rewrite !contains_iff. intros (a & b & ->).
  exists (pre +:+ a), (b +:+ post). now rewrite !append_assoc.
Qed.

Lemma isspace_differ (c w : ascii) :
  isspace c = false -> isspace w = true -> Ascii.eqb c w = false.
Proof.
  intros Hc Hw. destruct (Ascii.eqb_spec c w) as [->|]; [congruence | reflexivity].
Qed.

(** White space in front of a text adds no occurrence of a keyword that
    starts with another character. *)
Lemma contains_lpad (c : ascii) (k ws s : string) :
  isspace c = false -> blank ws = true ->
  contains (String c k) (ws +:+ s) = contains (String c k) s.
Proof.
  intros Hc. induction ws as [|w ws IH]; [reflexivity|].
  cbn [blank]. intros [Hw Hws]%andb_true_iff.
  rewrite append_cons. cbn [contains startswith].
  rewrite (isspace_differ c w Hc Hw). cbn [orb]. now apply IH.
Qed.

Lemma startswith_blank (k : string) (c : ascii) (ws : string) :
  isspace c = false -> blank ws = true ->
  startswith (k +:+ String c "") ws = false.
Proof.
  intros Hc. revert ws. induction k as [|d k IH]; intros [|w ws]; try reflexivity.
  - cbn [blank]. intros [Hw _]%andb_true_iff.
    rewrite append_empty_l. cbn [startswith]. now rewrite (isspace_differ c w).
  - cbn [blank]. intros [_ Hws]%andb_true_iff.
    rewrite append_cons. cbn [startswith].
    destruct (Ascii.eqb d w); [now apply IH | reflexivity].
Qed.

Lemma contains_blank (k : string) (c : ascii) (ws : string) :
  isspace c = false -> blank ws = true ->
  contains (k +:+ String c "") ws = false.
Proof.
  intros Hc. induction ws as [|w ws IH]; intros Hws.
  - cbn [contains]. now rewrite startswith_blank.
  - cbn [contains]. rewrite startswith_blank by assumption.
    cbn [blank] in Hws. apply andb_true_iff in Hws as [_ Hws]. now apply IH.
Qed.

Lemma startswith_rpad (k : string) (c : ascii) (s ws : string) :
  isspace c = false -> blank ws = true ->
  startswith (k +:+ String c "") (s +:+ ws) = startswith (k +:+ String c "") s.
Proof.
  intros Hc Hws. revert s. induction k as [|d k IH]; intros [|a s].
  - change (startswith ("" +:+ String c "") ws = false).
    now apply startswith_blank.
  - reflexivity.
  - change (startswith (String d k +:+ String c "") ws = false).
    now apply startswith_blank.
  - rewrite !append_cons. cbn [startswith].
    destruct (Ascii.eqb d a); [apply IH | reflexivity].
Qed.

(** White space behind a text adds no occurrence of a keyword that ends
    with another character. *)
Lemma contains_rpad (k : string) (c : ascii) (s ws : string) :
  isspace c = false -> blank ws = true ->
  contains (k +:+ String c "") (s +:+ ws) = contains (k +:+ String c "") s.
Proof.
  intros Hc Hws. induction s as [|a s IH].
  - change (contains (k +:+ String c "") ws = contains (k +:+ String c "") "").
    rewrite (contains_blank k c ws Hc Hws).
    symmetry. now apply contains_blank.
  - rewrite append_cons. cbn [contains].
    rewrite <- append_cons, (startswith_rpad k c (String a s) ws Hc Hws).
    now rewrite IH.
Qed.

Lemma contains_pad (kw k1 k2 : string) (c1 c2 : ascii) (ws1 s ws2 : string) :
  kw = String c1 k1 -> kw = k2 +:+ String c2 "" ->
  isspace c1 = false -> isspace c2 = false ->
  blank ws1 = true -> blank ws2 = true ->
  contains kw (ws1 +:+ s +:+ ws2) = contains kw s.
Proof.
  intros E1 E2 H1 H2 Hw1 Hw2.
  transitivity (contains kw (s +:+ ws2)).
  - rewrite E1. now apply contains_lpad.
  - rewrite E2. now apply contains_rpad.
Qed.

End Padding.

Section TextAround.

(** Keywords are looked for as substrings, with no regard for word
    boundaries or for the rest of the text: once a text has "sales" and
    "by region", every text that contains it is classified as the region
    aggregation too. *)
Theorem parse_query_to_sql_by_region_embedded (pre q post : string) (g : Globals) :
  contains "sales" (lower q) = true ->
  contains "by region" (lower q) = true ->
  parse_query_to_sql (pre +:+ q +:+ post) g
  = (Ok ("SELECT region, SUM(amount) FROM sales GROUP BY region", "sales"), g).
Proof.
  intros Hs Hr. unfold parse_query_to_sql. rewrite !lower_app.
  rewrite (contains_embedded "sales" _ _ _ Hs).
  now rewrite (contains_embedded "by region" _ _ _ Hr).
Qed.

Lemma parse_query_to_sql_by_region_embedded_witness :
  parse_query_to_sql ("Whole" +:+ "sales by regions" +:+ ", total") module_globals
  = (Ok ("SELECT region, SUM(amount) FROM sales GROUP BY region", "sales"),
     module_globals).
Proof.
  apply (parse_query_to_sql_by_region_embedded
           "Whole" "sales by regions" ", total" module_globals);
    reflexivity.
Defined.

(** White space before and after the text does not change the
    classification: no keyword starts or ends with a white-space character,
    so the classifier, which does not strip its input, answers a padded
    text like the text itself. *)
Theorem parse_query_to_sql_padding (ws1 q ws2 : string) :
  blank ws1 = true -> blank ws2 = true ->
  parse_query_to_sql (ws1 +:+ q +:+ ws2) = parse_query_to_sql q.
Proof.
  intros H1 H2. unfold parse_query_to_sql. rewrite !lower_app.
  assert (B1 : blank (lower ws1) = true) by now rewrite blank_lower.
  assert (B2 : blank (lower ws2) = true) by now rewrite blank_lower.
  rewrite (contains_pad "sales" "ales" "sale" "s" "s" _ _ _
             eq_refl eq_refl eq_refl eq_refl B1 B2).
  rewrite (contains_pad "by region" "y region" "by regio" "b" "n" _ _ _
             eq_refl eq_refl eq_refl eq_refl B1 B2).
  rewrite (contains_pad "total" "otal" "tota" "t" "l" _ _ _
             eq_refl eq_refl eq_refl eq_refl B1 B2).
  rewrite (contains_pad "by product" "y product" "by produc" "b" "t" _ _ _
             eq_refl eq_refl eq_refl eq_refl B1 B2).
  rewrite (contains_pad "customer" "ustomer" "custome" "c" "r" _ _ _
             eq_refl eq_refl eq_refl eq_refl B1 B2).
  rewrite (contains_pad "customers" "ustomers" "customer" "c" "s" _ _ _
             eq_refl eq_refl eq_refl eq_refl B1 B2).
  rewrite (contains_pad "count" "ount" "coun" "c" "t" _ _ _
             eq_refl eq_refl eq_refl eq_refl B1 B2).
  rewrite (contains_pad "new" "ew" "ne" "n" "w" _ _ _
             eq_refl eq_refl eq_refl eq_refl B1 B2).
  rewrite (contains_pad "recent" "ecent" "recen" "r" "t" _ _ _
             eq_refl eq_refl eq_refl eq_refl B1 B2).
  reflexivity.
Qed.

Lemma parse_query_to_sql_padding_witness :
  parse_query_to_sql (String "009" " " +:+ "customer count" +:+ String "010" "")
  = parse_query_to_sql "customer count".
Proof.
  apply (parse_query_to_sql_padding (String "009" " ") "customer count"
           (String "010" "")); reflexivity.
Defined.

End TextAround.

(** ** Further properties of the handlers *)

Section HandlerProperties.

Lemma blank_app (a b : string) : blank (a +:+ b) = blank a && blank b.
Proof.
  induction a as [|c a IH]; [reflexivity|].
  rewrite append_cons. cbn [blank]. now rewrite IH, andb_assoc.
Qed.

(** A text that holds a table name is not blank. *)
Lemma contains_table_not_blank (q : string) :
  contains "sales" (lower q) || contains "customers" (lower q) = true ->
  blank q = false.
Proof.
  intros H. destruct (blank q) eqn:E; [|reflexivity].
  rewrite <- blank_lower in E.
  assert (Hs : contains "sales" (lower q) = false)
    by exact (contains_blank "sale" "s" _ eq_refl E).
  assert (Hc : contains "customers" (lower q) = false)
    by exact (contains_blank "customer" "s" _ eq_refl E).
  rewrite Hs, Hc in H. discriminate H.
Qed.

(** The verdict of /validate depends on the table names alone: the query
    is valid exactly when its lower-cased text contains "sales" or
    "customers".  The test for an empty query decides which of the two
    refusals is given, never the verdict, and the answer carries the query
    as it was sent. *)
Theorem validate_query_valid_iff (q : string) (auth : bool) :
  exists r,
    validate_query (QueryRequest.mk q) auth module_globals = (Ok r, module_globals)
    /\ ValidateResponse.query r = q
    /\ (ValidateResponse.is_valid r = true <->
        contains "sales" (lower q) = true \/ contains "customers" (lower q) = true)
    /\ (ValidateResponse.is_valid r = true <->
        ValidateResponse.message r = "Query appears valid").
Proof.
  eexists. split; [apply validate_query_run|].
  pose proof (contains_table_not_blank q) as Hnb.
  destruct (contains "sales" (lower q)), (contains "customers" (lower q));
    cbn [orb] in *;
    try (rewrite Hnb by reflexivity);
    try (destruct (blank q));
    cbn [ValidateResponse.query ValidateResponse.is_valid ValidateResponse.message];
    (split; [reflexivity|]);
    (split; split; intros H; try reflexivity; try discriminate H; try tauto;
     destruct H as [H|H]; discriminate H).
Qed.

(** /validate does not tell upper case from lower case: a query and its
    lower-cased form get the same verdict and the same message. *)
Theorem validate_query_case_insensitive (q : string) (auth : bool) :
  exists r r',
    validate_query (QueryRequest.mk q) auth module_globals = (Ok r, module_globals)
    /\ validate_query (QueryRequest.mk (lower q)) auth module_globals
       = (Ok r', module_globals)
    /\ ValidateResponse.is_valid r = ValidateResponse.is_valid r'
    /\ ValidateResponse.message r = ValidateResponse.message r'.
Proof.
  do 2 eexists. split; [apply validate_query_run|].
  split; [apply validate_query_run|].
  rewrite lower_idem, blank_lower.
  destruct (blank q); [now split|].
  now destruct (contains "sales" (lower q) || contains "customers" (lower q)).
Qed.

(** White space before and after the query changes neither the verdict
    nor the message of /validate. *)
Theorem validate_query_padding (ws1 q ws2 : string) (auth : bool) :
  blank ws1 = true -> blank ws2 = true ->
  exists r r',
    validate_query (QueryRequest.mk q) auth module_globals = (Ok r, module_globals)
    /\ validate_query (QueryRequest.mk (ws1 +:+ q +:+ ws2)) auth module_globals
       = (Ok r', module_globals)
    /\ ValidateResponse.is_valid r' = ValidateResponse.is_valid r
    /\ ValidateResponse.message r' = ValidateResponse.message r.
Proof.
  intros H1 H2. do 2 eexists. split; [apply validate_query_run|].
  split; [apply validate_query_run|].
  assert (B1 : blank (lower ws1) = true) by now rewrite blank_lower.
  assert (B2 : blank (lower ws2) = true) by now rewrite blank_lower.
  rewrite !blank_app, H1, H2, andb_true_r. cbn [andb].
  rewrite !lower_app.
  rewrite (contains_pad "sales" "ales" "sale" "s" "s" _ _ _
             eq_refl eq_refl eq_refl eq_refl B1 B2).
  rewrite (contains_pad "customers" "ustomers" "customer" "c" "s" _ _ _
             eq_refl eq_refl eq_refl eq_refl B1 B2).
  destruct (blank q); [now split|].
  now destruct (contains "sales" (lower q) || contains "customers" (lower q)).
Qed.

Lemma validate_query_padding_witness :
  exists r r',
    validate_query (QueryRequest.mk "Customers") true module_globals
    = (Ok r, module_globals)
    /\ validate_query (QueryRequest.mk ("  " +:+ "Customers" +:+ String "010" ""))
         true module_globals
       = (Ok r', module_globals)
    /\ ValidateResponse.is_valid r' = ValidateResponse.is_valid r
    /\ ValidateResponse.message r' = ValidateResponse.message r.
Proof.
  apply (validate_query_padding "  " "Customers" (String "010" "") true);
    reflexivity.
Defined.

End HandlerProperties.

(** ** The handlers in any module state, and the routes *)

Section AnyState.

(** What [process_query] computes, in any module state. *)
Lemma process_query_run (q : string) (auth : bool) (g : Globals) :
  exists statement table,
    parse_query_to_sql q g = (Ok (statement, table), g)
    /\ process_query (QueryRequest.mk q) auth g
       = (Ok (QueryResponse.mk q statement (default [] (mock_responses g !! table))),
          g).
Proof.
  destruct (parse_query_to_sql_cases q g) as ([statement table] & Hrun & _).
  exists statement, table. split; [exact Hrun|].
  unfold process_query, try_except, bind, globals, dict_get.
  cbn [QueryRequest.query]. now rewrite Hrun.
Qed.

(** /query has no failure of its own.  In any module state the handler
    returns, and its 400 branch is never taken: a table that
    [mock_responses] does not hold gives an empty list of results, not an
    error, and a table it holds gives the list stored for it. *)
Theorem process_query_never_fails (q : string) (auth : bool) (g : Globals) :
  exists statement table r,
    parse_query_to_sql q g = (Ok (statement, table), g)
    /\ process_query (QueryRequest.mk q) auth g = (Ok r, g)
    /\ QueryResponse.original_query r = q
    /\ QueryResponse.translated_sql r = statement
    /\ (mock_responses g !! table = None -> QueryResponse.results r = [])
    /\ (forall rows,
          mock_responses g !! table = Some rows -> QueryResponse.results r = rows).
Proof.
  destruct (process_query_run q auth g) as (statement & table & Hparse & Hrun).
  exists statement, table. eexists. split; [exact Hparse|].
  split; [exact Hrun|]. cbn.
  repeat split; [intros -> | intros rows ->]; reflexivity.
Qed.

Lemma process_query_never_fails_witness :
  exists r,
    process_query (QueryRequest.mk "total sales") true (mkGlobals ∅ ∅)
    = (Ok r, mkGlobals ∅ ∅)
    /\ QueryResponse.results r = [].
Proof.
  destruct (process_query_never_fails "total sales" true (mkGlobals ∅ ∅))
    as (statement & table & r & _ & Hrun & _ & _ & Hnone & _).
  exists r. split; [exact Hrun|].
  apply Hnone. apply lookup_empty.
Defined.

(** /explain, unlike /query, fails when the table of the classifier is not
    in [mock_db], or when its descriptor has no "columns": the [KeyError] is
    caught and turned into a 400 failure whose detail names the missing
    key between quotes. *)
Theorem explain_query_missing_key (q : string) (auth : bool) (g : Globals) :
  exists statement table,
    parse_query_to_sql q g = (Ok (statement, table), g)
    /\ (mock_db g !! table = None ->
        explain_query (QueryRequest.mk q) auth g
        = (Raise (HTTPException 400
                    ("Query explanation failed: '" +:+ table +:+ "'")), g))
    /\ (forall descriptor,
          mock_db g !! table = Some descriptor ->
          descriptor !! "columns" = None ->
          explain_query (QueryRequest.mk q) auth g
          = (Raise (HTTPException 400 "Query explanation failed: 'columns'"), g)).
Proof.
  destruct (parse_query_to_sql_cases q g) as ([statement table] & Hrun & _).
  exists statement, table. split; [exact Hrun|].
  unfold explain_query, try_except, bind, globals, getitem.
  cbn [QueryRequest.query]. rewrite Hrun.
  split; [intros -> | intros descriptor Hd Hc]; [reflexivity|].
  rewrite Hd. cbv beta iota delta [ret]. now rewrite Hc.
Qed.

Lemma explain_query_missing_key_witness :
  explain_query (QueryRequest.mk "customer count") true
    (mkGlobals {[ "sales" := ∅ ]} ∅)
  = (Raise (HTTPException 400 "Query explanation failed: 'customers'"),
     mkGlobals {[ "sales" := ∅ ]} ∅).
Proof.
  destruct (explain_query_missing_key "customer count" true
              (mkGlobals {[ "sales" := ∅ ]} ∅))
    as (statement & table & Hparse & Hnone & _).
  injection Hparse as <- <-. apply Hnone. reflexivity.
Defined.

End AnyState.

Section Service.

(** /explain describes what /query answers.  For one query, in the module
    state, both handlers return; they give the same statement; the data
    set stored for the table that /explain detects is the list of results
    of /query; and every record of these results has exactly the columns
    that /explain lists. *)
Theorem explain_query_describes_query (q : string) (auth : bool) :
  exists rq re table columns,
    process_query (QueryRequest.mk q) auth module_globals = (Ok rq, module_globals)
    /\ explain_query (QueryRequest.mk q) auth module_globals
       = (Ok re, module_globals)
    /\ ExplainResponse.original_query re = q
    /\ ExplainResponse.translated_sql re = QueryResponse.translated_sql rq
    /\ ExplainResponse.breakdown re !! "detected_table" = Some (PyStr table)
    /\ mock_responses module_globals !! table = Some (QueryResponse.results rq)
    /\ ExplainResponse.breakdown re !! "columns" = Some (PyList (PyStr <$> columns))
    /\ Forall (fun row : gmap string pyval => dom row = list_to_set columns)
         (QueryResponse.results rq).
Proof.
  destruct (parse_query_to_sql_cases q module_globals)
    as ([statement table] & Hparse & Hr).
  destruct (process_query_run q auth module_globals) as (s1 & t1 & Hp1 & Hq).
  rewrite Hparse in Hp1. injection Hp1 as <- <-.
  destruct (explain_query_run q auth) as (s2 & t2 & d & cols & Hp2 & Hdb & Hcol & He).
  rewrite Hparse in Hp2. injection Hp2 as <- <-.
  do 2 eexists. exists table, cols.
  split; [exact Hq|]. split; [exact He|].
  cbn [ExplainResponse.original_query ExplainResponse.translated_sql
       ExplainResponse.breakdown QueryResponse.translated_sql
       QueryResponse.results].
  split; [reflexivity|]. split; [reflexivity|].
  split; [vm_compute; reflexivity|].
  repeat destruct Hr as [Hr|Hr]; injection Hr as -> ->;
    vm_compute in Hdb; injection Hdb as <-;
    vm_compute in Hcol; injection Hcol as <-;
    (split; [vm_compute; reflexivity|]);
    (split; [vm_compute; reflexivity|]);
    apply (bool_decide_unpack _); vm_compute; exact I.
Qed.

(** The three statements with SUM are reported as aggregations: a text
    with "sales" and one of "by region", "total", "by product" gets the
    query type "aggregation" and the detected table "sales". *)
Theorem explain_query_sum_aggregation (q : string) (auth : bool) :
  contains "sales" (lower q) = true ->
  contains "by region" (lower q) = true
  \/ contains "total" (lower q) = true
  \/ contains "by product" (lower q) = true ->
  exists r,
    explain_query (QueryRequest.mk q) auth module_globals = (Ok r, module_globals)
    /\ contains "SUM" (ExplainResponse.translated_sql r) = true
    /\ ExplainResponse.breakdown r !! "query_type" = Some (PyStr "aggregation")
    /\ ExplainResponse.breakdown r !! "detected_table" = Some (PyStr "sales").
Proof.
  intros Hs Hk.
  destruct (explain_query_run q auth)
    as (statement & table & d & cols & Hparse & _ & _ & He).
  eexists. split; [exact He|].
  cbn [ExplainResponse.translated_sql ExplainResponse.breakdown].
  revert Hparse. unfold parse_query_to_sql, ret. rewrite Hs.
  destruct (contains "by region" (lower q));
    [|destruct (contains "total" (lower q));
      [|destruct (contains "by product" (lower q));
        [|destruct Hk as [Hk|[Hk|Hk]]; discriminate Hk]]];
    intros [= <- <-]; repeat split; vm_compute; reflexivity.
Qed.

Lemma explain_query_sum_aggregation_witness :
  exists r,
    explain_query (QueryRequest.mk "Sales by Product") true module_globals
    = (Ok r, module_globals)
    /\ contains "SUM" (ExplainResponse.translated_sql r) = true
    /\ ExplainResponse.breakdown r !! "query_type" = Some (PyStr "aggregation")
    /\ ExplainResponse.breakdown r !! "detected_table" = Some (PyStr "sales").
Proof.
  apply (explain_query_sum_aggregation "Sales by Product" true);
    [reflexivity | right; right; reflexivity].
Defined.

(** With the right credentials none of the three POST routes fails in the
    module state: whatever the query, the answer is a response of the
    route, never the 400 nor the 401 failure. *)
Theorem app_authorized_ok (c : HTTPBasicCredentials.t) (body : QueryRequest.t) :
  authorized c ->
  (exists r, app (POST_query c body) module_globals
             = (Ok (QueryOut r), module_globals))
  /\ (exists r, app (POST_explain c body) module_globals
                = (Ok (ExplainOut r), module_globals))
  /\ (exists r, app (POST_validate c body) module_globals
                = (Ok (ValidateOut r), module_globals)).
Proof.
  intros Hc. destruct body as [q].
  pose proof (verify_credentials_ok c module_globals Hc) as Hv.
  destruct (process_query_run q true module_globals) as (s1 & t1 & _ & Hq).
  destruct (explain_query_run q true) as (s2 & t2 & d & cols & _ & _ & _ & He).
  pose proof (validate_query_run q true) as Hval.
  cbn [app]. unfold bind at 1 3 5. rewrite Hv.
  unfold bind. rewrite Hq, He, Hval.
  repeat split; eexists; reflexivity.
Qed.

Lemma app_authorized_ok_witness :
  exists r,
    app (POST_query (HTTPBasicCredentials.mk "admin" "secret123")
           (QueryRequest.mk "")) module_globals
    = (Ok (QueryOut r), module_globals).
Proof.
  apply (app_authorized_ok (HTTPBasicCredentials.mk "admin" "secret123")
           (QueryRequest.mk "")).
  split; reflexivity.
Defined.

End Service.

Section ReadOnly.

Lemma bind_keeps_state {A B : Type} (m : Py A) (k : A -> Py B) :
  (forall g, snd (m g) = g) ->
  (forall a g, snd (k a g) = g) ->
  forall g, snd (bind m k g) = g.
Proof.
  intros Hm Hk g. unfold bind. specialize (Hm g).
  destruct (m g) as [[a|e] g']; cbn [snd] in *; subst g'; [apply Hk | reflexivity].
Qed.

Lemma verify_credentials_keeps_state (c : HTTPBasicCredentials.t) (g : Globals) :
  snd (verify_credentials c g) = g.
Proof. unfold verify_credentials. now destruct (_ || _). Qed.

Lemma process_query_keeps_state (body : QueryRequest.t) (auth : bool) (g : Globals) :
  snd (process_query body auth g) = g.
Proof.
  destruct body as [q].
  destruct (process_query_run q auth g) as (s & t & _ & H). now rewrite H.
Qed.

Lemma explain_query_keeps_state (body : QueryRequest.t) (auth : bool) (g : Globals) :
  snd (explain_query body auth g) = g.
Proof.
  destruct body as [q].
  destruct (parse_query_to_sql_cases q g) as ([s t] & Hrun & _).
  unfold explain_query, try_except, bind, globals, getitem.
  cbn [QueryRequest.query]. rewrite Hrun.
  destruct (mock_db g !! t) as [d|]; [|reflexivity].
  cbv beta iota delta [ret].
  now destruct (d !! "columns").
Qed.

Lemma validate_query_keeps_state (body : QueryRequest.t) (auth : bool) (g : Globals) :
  snd (validate_query body auth g) = g.
Proof.
  unfold validate_query, bind, globals.
  destruct (negb _); [reflexivity|]. now destruct (negb _).
Qed.

(** No request changes [mock_db] or [mock_responses], whether it is
    answered or refused: the module state after a request is the state
    before it, so the answer to a request does not depend on the requests
    served earlier. *)
Theorem app_read_only (req req' : Request) (g : Globals) :
  snd (app req g) = g
  /\ app req' (snd (app req g)) = app req' g.
Proof.
  assert (H : snd (app req g) = g).
  { destruct req as [c body|c body|c body|]; cbn [app].
    - apply bind_keeps_state; [apply verify_credentials_keeps_state|].
      intros auth g0. apply bind_keeps_state; [|reflexivity].
      apply process_query_keeps_state.
    - apply bind_keeps_state; [apply verify_credentials_keeps_state|].
      intros auth g0. apply bind_keeps_state; [|reflexivity].
      apply explain_query_keeps_state.
    - apply bind_keeps_state; [apply verify_credentials_keeps_state|].
      intros auth g0. apply bind_keeps_state; [|reflexivity].
      apply validate_query_keeps_state.
    - reflexivity. }
  split; [exact H | now rewrite H].
Qed.

End ReadOnly.

Section AcrossRoutes.

(** A query that the classifier answers with one of the SUM statements is
    always accepted by /validate: such a statement comes from the "sales"
    branch only, and a text with "sales" holds a table name. *)
Theorem validate_query_accepts_sum_queries (q : string) (auth : bool) :
  forall statement table,
    parse_query_to_sql q module_globals = (Ok (statement, table), module_globals) ->
    contains "SUM" statement = true ->
    validate_query (QueryRequest.mk q) auth module_globals
    = (Ok (ValidateResponse.mk q true "Query appears valid"), module_globals).
Proof.
  intros statement table Hparse Hsum.
  rewrite validate_query_run.
  assert (Hs : contains "sales" (lower q) = true).
  { revert Hparse. unfold parse_query_to_sql, ret.
    destruct (contains "sales" (lower q)); [reflexivity|].
    repeat match goal with
           | |- context [if ?b then _ else _] => destruct b
           end; intros [= <- <-]; discriminate Hsum. }
  rewrite (contains_table_not_blank q) by now rewrite Hs.
  now rewrite Hs.
Qed.

Lemma validate_query_accepts_sum_queries_witness :
  validate_query (QueryRequest.mk "TOTAL SALES") true module_globals
  = (Ok (ValidateResponse.mk "TOTAL SALES" true "Query appears valid"),
     module_globals).
Proof.
  apply (validate_query_accepts_sum_queries "TOTAL SALES" true
           "SELECT SUM(amount) FROM sales" "sales"); reflexivity.
Defined.

End AcrossRoutes.
